(** * ansible-requirements-lint: the Ansible Galaxy provider

    A shallow embedding of [provider/galaxy.go] and the properties its
    specification states about it.

    The provider talks to the outside world through four Go libraries
    ([net/url], [net/http], [io/ioutil], [encoding/json]).  Their behaviour
    is not part of this repository, so it is collected in a record [Env] of
    functions; [VersionsForRole] is written over an arbitrary [Env], in an
    error monad that also records every request handed to the HTTP client. *)

From Stdlib Require Import ZArith Ascii String.
From stdpp Require Import base option list strings gmap.

Local Open Scope Z_scope.
Local Open Scope string_scope.
Local Open Scope list_scope.
Local Open Scope stdpp_scope.

(** ** Go values used by the provider *)

(** [error]: the error values [VersionsForRole] can return.  The two
    [fmt.Errorf] calls of the source keep their argument; errors coming out of
    a library call are carried through unchanged. *)
Inductive error : Type :=
| LibraryError (msg : string)
| UnexpectedResponseCode (code : Z)
    (* "unexpected Ansible Galaxy response code: %d" *)
| UnableToFindRole (keywords : string).
    (* "unable to find role in Ansible Galaxy: %s" *)

(** A Go pair [(value, error)] in which exactly one side is meaningful. *)
Inductive result (A : Type) : Type :=
| Ok (a : A)
| Err (e : error).
Arguments Ok {A} a.
Arguments Err {A} e.

Module requirements.
(** Modelled from the spec: the struct [requirements.Role] is declared in
    the package [requirements], which [galaxy.go] imports and which lies
    outside [provider/].  The provider reads [r.Source]
    and [r.Name]; the spec's DependencyReference adds the declared version.
    [Source] is a Go string, whose zero value (the empty string) stands for
    an absent source hint. *)
Record Role : Type := {
  Name : string;
  Version : string;
  Source : string
}.
End requirements.
Import requirements.

(** [context.Context] is opaque to the provider: it is only passed on. *)
Inductive context_Context : Type :=
| context_token (id : nat).

(** [url.Values] and [http.Header] are both [map[string][]string]. *)
Abbreviation url_Values := (gmap string (list string)).
Abbreviation http_Header := (gmap string (list string)).

(** [v.Add(key, value)]: append to the values of [key]. *)
Definition Values_Add (v : url_Values) (key value : string) : url_Values :=
  <[key := default [] (v !! key) ++ [value]]> v.

(** [h.Set(key, value)] replaces, [h.Add(key, value)] appends.  Both keys
    used by the provider are already in canonical MIME form. *)
Definition Header_Set (h : http_Header) (key value : string) : http_Header :=
  <[key := [value]]> h.
Definition Header_Add (h : http_Header) (key value : string) : http_Header :=
  <[key := default [] (h !! key) ++ [value]]> h.

(** [*url.URL]: the provider only writes the field [RawQuery]; everything
    else [url.Parse] extracted is kept in [Location]. *)
Record URL : Type := {
  Location : string;
  RawQuery : string
}.

Definition set_RawQuery (u : URL) (q : string) : URL :=
  {| Location := Location u; RawQuery := q |}.

(** [*http.Request] *)
Record Request : Type := {
  Method : string;
  RequestURL : string;
  Header : http_Header
}.

Definition with_Header (req : Request) (h : http_Header) : Request :=
  {| Method := Method req; RequestURL := RequestURL req; Header := h |}.

(** [*http.Response]: the status code and the body.  [Body] is the outcome
    of [ioutil.ReadAll(resp.Body)], the bytes or a read error. *)
Record Response : Type := {
  StatusCode : Z;
  Body : result string
}.

(** The JSON shape the provider decodes into (galaxy.go, lines 95-109). *)
Record versionEntry : Type := { version_Name : string }.
Record namespaceEntry : Type := { namespace_Name : string }.
Record summaryFields : Type := {
  Versions : list versionEntry;
  Namespace : namespaceEntry
}.
Record galaxyResult : Type := { SummaryFields : summaryFields }.
Record searchResults : Type := {
  Count : Z;
  Results : list galaxyResult
}.

(** The namespace of a result entry, and the names of its versions in the
    order of the decoded document. *)
Abbreviation namespace_of c := (namespace_Name (Namespace (SummaryFields c))).
Abbreviation names_of c := (map version_Name (Versions (SummaryFields c))).

(** ** The libraries the provider calls *)

Record Env : Type := {
  url_Parse : string -> result URL;
  URL_String : URL -> string;
  Values_Encode : url_Values -> string;
  http_NewRequestWithContext :
    context_Context -> string -> string -> result Request;
  (* [client.Do] of an [http.Client] with a ten second timeout; transport
     failures and timeouts are its [Err] answers *)
  client_Do : Request -> result Response;
  json_Unmarshal : string -> result searchResults
}.

(** ** [strings.Split] with a one-byte separator

    Go strings are byte sequences, and so are Rocq's.  [Split_byte sep s]
    cuts [s] at every occurrence of [sep]; like [strings.Split], it returns
    one segment more than there are separators, so at least one. *)
Fixpoint Split_byte (sep : ascii) (s : string) : list string :=
  match s with
  | EmptyString => [EmptyString]
  | String c s' =>
      if Ascii.eqb c sep then EmptyString :: Split_byte sep s'
      else match Split_byte sep s' with
           | seg :: segs => String c seg :: segs
           | [] => [String c EmptyString]
           end
  end.

(** [strings.Split(s, ".")] *)
Definition strings_Split_dot (s : string) : list string :=
  Split_byte "."%char s.

(** [strings.Join(segs, sep)] for a one-byte separator, and the test whether
    a byte occurs in a string; both only serve to state what [Split_byte]
    computes. *)
Fixpoint Join_byte (sep : ascii) (segs : list string) : string :=
  match segs with
  | [] => EmptyString
  | [seg] => seg
  | seg :: rest => seg +:+ String sep (Join_byte sep rest)
  end.

Fixpoint contains_byte (c : ascii) (s : string) : bool :=
  match s with
  | EmptyString => false
  | String c' s' => Ascii.eqb c' c || contains_byte c s'
  end.

(** ** The provider *)

(** [DefaultAnsibleGalaxyURL] (galaxy.go, line 19) *)
Definition DefaultAnsibleGalaxyURL : string := "https://galaxy.ansible.com".

(** [type AnsibleGalaxy struct] (galaxy.go, lines 24-26) *)
Record AnsibleGalaxy : Type := { baseURL : string }.

(** [NewAnsibleGalaxy] (galaxy.go, lines 32-40) *)
Definition NewAnsibleGalaxy (base : string) : AnsibleGalaxy :=
  if String.eqb base "" then {| baseURL := DefaultAnsibleGalaxyURL |}
  else {| baseURL := base |}.

(** The local [keywords] of [VersionsForRole] (galaxy.go, lines 53-58). *)
Definition keywords (r : Role) : string :=
  if negb (Nat.eqb (String.length (Source r)) 0%nat) then Source r else Name r.

(** The local [namespace] of [VersionsForRole] (galaxy.go, lines 61-65):
    declared as the empty string, overwritten with [split[0]] when the split
    has an element. *)
Definition namespace (keywords : string) : string :=
  let split := strings_Split_dot keywords in
  if Nat.ltb 0%nat (length split) then nth 0%nat split "" else "".

(** The search for the best match (galaxy.go, lines 116-126).  [matching] is
    a pointer in the source, [nil] until an entry is chosen: an [option]
    here.  [scan_results] is the [for ... range] loop with its [break]. *)
Fixpoint scan_results (results : list galaxyResult) (namespace : string)
  : option galaxyResult :=
  match results with
  | [] => None
  | r :: rest =>
      if String.eqb (namespace_Name (Namespace (SummaryFields r))) namespace
      then Some r
      else scan_results rest namespace
  end.

Definition matching (results : list galaxyResult) (namespace : string)
  : option galaxyResult :=
  if Nat.eqb (length results) 1%nat then results !! 0%nat
  else scan_results results namespace.

(** The copy of the version names (galaxy.go, lines 132-135):
    [make([]string, n)] allocates [n] empty strings, and the loop writes
    [versions[i] = v.Name] for the [i]-th element [v]. *)
Definition make_strings (n : nat) : list string := replicate n "".

Fixpoint fill_versions (vs : list versionEntry) (i : nat)
    (versions : list string) : list string :=
  match vs with
  | [] => versions
  | v :: rest => fill_versions rest (S i) (<[i := version_Name v]> versions)
  end.

Definition versions (m : galaxyResult) : list string :=
  let vs := Versions (SummaryFields m) in
  fill_versions vs 0%nat (make_strings (length vs)).

(** ** The effect monad

    A computation returns a value or an error, and appends to the list of
    requests it has handed to the HTTP client. *)
Definition Wire : Type := list Request.
Definition M (A : Type) : Type := Wire -> result A * Wire.

#[global] Instance M_ret : MRet M := fun A (a : A) w => (Ok a, w).
#[global] Instance M_bind : MBind M := fun A B (k : A -> M B) (m : M A) w =>
  match m w with
  | (Ok a, w') => k a w'
  | (Err e, w') => (Err e, w')
  end.

(** the outcome of a library call that touches no network *)
Definition lift {A : Type} (r : result A) : M A := fun w => (r, w).

(** [return nil, err] *)
Definition fail {A : Type} (e : error) : M A := fun w => (Err e, w).

(** [client.Do(req)]: the request goes out, whatever comes back *)
Definition Do (env : Env) (req : Request) : M Response :=
  fun w => (client_Do env req, w ++ [req]).

(** [VersionsForRole] (galaxy.go, lines 43-137).  [defer resp.Body.Close()]
    has no effect on the returned values and is left out. *)
Definition VersionsForRole (env : Env) (g : AnsibleGalaxy)
    (ctx : context_Context) (r : Role) : M (list string) :=
  u ← lift (url_Parse env (baseURL g +:+ "/api/v1/search/roles/"));
  let params := Values_Add ∅ "keywords" (keywords r) in
  let u := set_RawQuery u (Values_Encode env params) in
  req ← lift (http_NewRequestWithContext env ctx "GET" (URL_String env u));
  let req :=
    with_Header req
      (Header_Set (Header req) "User-Agent" "ansible-requirements-lint") in
  let req :=
    with_Header req (Header_Add (Header req) "Accept" "application/json") in
  resp ← Do env req;
  if ((StatusCode resp <? 200) && (StatusCode resp >=? 300))%Z
  then fail (UnexpectedResponseCode (StatusCode resp))
  else
    body ← lift (Body resp);
    results ← lift (json_Unmarshal env body);
    match matching (Results results) (namespace (keywords r)) with
    | None => fail (UnableToFindRole (keywords r))
    | Some m => mret (versions m)
    end.

(** One call of [VersionsForRole] from a quiet wire: what it returns, and
    the requests it sent. *)
Definition call (env : Env) (g : AnsibleGalaxy) (ctx : context_Context)
    (r : Role) : result (list string) * Wire :=
  VersionsForRole env g ctx r [].

Definition returned (env : Env) (g : AnsibleGalaxy) (ctx : context_Context)
    (r : Role) : result (list string) :=
  fst (call env g ctx r).

Definition sent (env : Env) (g : AnsibleGalaxy) (ctx : context_Context)
    (r : Role) : Wire :=
  snd (call env g ctx r).

(** The request [VersionsForRole] builds for [r], given what [url.Parse]
    and [http.NewRequestWithContext] answered. *)
Definition search_url (env : Env) (u : URL) (r : Role) : string :=
  URL_String env
    (set_RawQuery u (Values_Encode env {["keywords" := [keywords r]]})).

Definition search_request (req : Request) : Request :=
  let req :=
    with_Header req
      (Header_Set (Header req) "User-Agent" "ansible-requirements-lint") in
  with_Header req (Header_Add (Header req) "Accept" "application/json").

(** [Answers env g ctx r resp results]: in the lookup of [r], the request was
    built and sent, the registry answered [resp], and the body of [resp] was
    read and decoded into [results]. *)
Inductive Answers (env : Env) (g : AnsibleGalaxy) (ctx : context_Context)
    (r : Role) (resp : Response) (results : searchResults) : Prop :=
| Answers_intro (u : URL) (req : Request) (body : string) :
    url_Parse env (baseURL g +:+ "/api/v1/search/roles/") = Ok u ->
    http_NewRequestWithContext env ctx "GET" (search_url env u r) = Ok req ->
    client_Do env (search_request req) = Ok resp ->
    Body resp = Ok body ->
    json_Unmarshal env body = Ok results ->
    Answers env g ctx r resp results.

(** [LibraryFailure env g ctx r e]: in the lookup of [r], one of the library
    calls answered with the error [e]; the constructors follow the five
    [if err != nil] tests of the source (galaxy.go, lines 48, 73, 81, 91
    and 111). *)
Inductive LibraryFailure (env : Env) (g : AnsibleGalaxy)
    (ctx : context_Context) (r : Role) (e : error) : Prop :=
| Failure_url_Parse :
    url_Parse env (baseURL g +:+ "/api/v1/search/roles/") = Err e ->
    LibraryFailure env g ctx r e
| Failure_NewRequest (u : URL) :
    url_Parse env (baseURL g +:+ "/api/v1/search/roles/") = Ok u ->
    http_NewRequestWithContext env ctx "GET" (search_url env u r) = Err e ->
    LibraryFailure env g ctx r e
| Failure_Do (u : URL) (req : Request) :
    url_Parse env (baseURL g +:+ "/api/v1/search/roles/") = Ok u ->
    http_NewRequestWithContext env ctx "GET" (search_url env u r) = Ok req ->
    client_Do env (search_request req) = Err e ->
    LibraryFailure env g ctx r e
| Failure_ReadAll (u : URL) (req : Request) (resp : Response) :
    url_Parse env (baseURL g +:+ "/api/v1/search/roles/") = Ok u ->
    http_NewRequestWithContext env ctx "GET" (search_url env u r) = Ok req ->
    client_Do env (search_request req) = Ok resp ->
    Body resp = Err e ->
    LibraryFailure env g ctx r e
| Failure_Unmarshal (u : URL) (req : Request) (resp : Response)
    (body : string) :
    url_Parse env (baseURL g +:+ "/api/v1/search/roles/") = Ok u ->
    http_NewRequestWithContext env ctx "GET" (search_url env u r) = Ok req ->
    client_Do env (search_request req) = Ok resp ->
    Body resp = Ok body ->
    json_Unmarshal env body = Err e ->
    LibraryFailure env g ctx r e.

(** ** The resolver *)

Inductive Status : Type := UpToDate | Outdated | Unresolved.

Record ResolutionResult : Type := {
  reference : Role;
  latestVersion : option string;
  status : Status
}.

(** Modelled from the spec: the function [resolve] that consumes
    [VersionsForRole] is not in [provider/galaxy.go] and lies outside
    [provider/].  Steps 1 to 4 of the spec's algorithm (keyword,
    namespace, search, choice of the entry) are what [VersionsForRole] does;
    steps 5 to 7 follow the spec: a failed lookup and an empty version list
    give [Unresolved] with no latest version, otherwise the first version of
    the list is the latest, and it is compared with the declared version by
    string equality. *)
Definition resolve (env : Env) (g : AnsibleGalaxy) (ctx : context_Context)
    (ref : Role) : ResolutionResult :=
  match returned env g ctx ref with
  | Err _ =>
      {| reference := ref; latestVersion := None; status := Unresolved |}
  | Ok [] =>
      {| reference := ref; latestVersion := None; status := Unresolved |}
  | Ok (latest :: _) =>
      {| reference := ref;
         latestVersion := Some latest;
         status := if String.eqb latest (Version ref)
                   then UpToDate else Outdated |}
  end.

(** Modelled from the spec: the run over a manifest, which is not in
    [provider/galaxy.go] either; by the spec's control flow, every declared
    dependency is resolved, in order, whatever became of the others. *)
Definition resolveAll (env : Env) (g : AnsibleGalaxy) (ctx : context_Context)
    (refs : list Role) : list ResolutionResult :=
  map (resolve env g ctx) refs.

(** ** Registries to run the provider against *)

Module Fixtures.

Definition entry (ns : string) (vs : list string) : galaxyResult :=
  {| SummaryFields :=
       {| Versions := map (fun v => {| version_Name := v |}) vs;
          Namespace := {| namespace_Name := ns |} |} |}.

(** What the registry's document decodes into. *)
Definition decoded (results : list galaxyResult) : searchResults :=
  {| Count := Z.of_nat (length results); Results := results |}.

(** A registry that answers every search with status [code] and a body
    that decodes into [results].  The URL is kept as text, and the query
    is the keyword, unescaped. *)
Definition registry (code : Z) (results : list galaxyResult) : Env :=
  {| url_Parse raw := Ok {| Location := raw; RawQuery := "" |};
     URL_String u := Location u +:+ "?" +:+ RawQuery u;
     Values_Encode v :=
       match v !! "keywords" with
       | Some [k] => "keywords=" +:+ k
       | _ => ""
       end;
     http_NewRequestWithContext _ method target :=
       Ok {| Method := method; RequestURL := target; Header := ∅ |};
     client_Do _ := Ok {| StatusCode := code; Body := Ok "{...}" |};
     json_Unmarshal _ := Ok (decoded results) |}.

Definition ctx : context_Context := context_token 0.

Definition galaxy : AnsibleGalaxy := NewAnsibleGalaxy "".

Definition ns_role : Role :=
  {| Name := "ns.role"; Version := "v1.0.0"; Source := "" |}.

Definition forked_role : Role :=
  {| Name := "role"; Version := "v1.0.0"; Source := "fork.role" |}.

Definition ghost_role : Role :=
  {| Name := "ghost.role"; Version := "v0.1.0"; Source := "" |}.

(** A registry whose library calls answer as scripted, whatever they are
    asked: [parsed] for [url.Parse], [built] for
    [http.NewRequestWithContext], [answered] for [client.Do] and [document]
    for [json.Unmarshal]. *)
Definition scripted (parsed : result URL) (built : result Request)
    (answered : result Response) (document : result searchResults) : Env :=
  {| url_Parse _ := parsed;
     URL_String u := Location u +:+ "?" +:+ RawQuery u;
     Values_Encode v :=
       match v !! "keywords" with
       | Some [k] => "keywords=" +:+ k
       | _ => ""
       end;
     http_NewRequestWithContext _ _ _ := built;
     client_Do _ := answered;
     json_Unmarshal _ := document |}.

Definition search_location : URL :=
  {| Location := "https://galaxy.ansible.com/api/v1/search/roles/";
     RawQuery := "" |}.

(** A request that already carries headers when the provider receives it. *)
Definition plain_request : Request :=
  {| Method := "GET";
     RequestURL := "https://galaxy.ansible.com/api/v1/search/roles/?keywords=ns.role";
     Header := {["Accept" := ["text/html"]; "User-Agent" := ["Go-http-client/1.1"];
                 "X-Trace" := ["1"]]} |}.

Definition timeout : error := LibraryError "context deadline exceeded".

End Fixtures.

(** * Properties *)

(** ** [strings.Split] *)

Section Split.
Variable sep : ascii.

Lemma Split_byte_not_nil (s : string) : Split_byte sep s <> [].
Proof.
  induction s as [|c s IH]; simpl; [discriminate|].
  destruct (Ascii.eqb c sep); [discriminate|].
  destruct (Split_byte sep s); discriminate.
Qed.

(** Joining the segments with the separator gives the string back. *)
Lemma Join_Split_byte (s : string) : Join_byte sep (Split_byte sep s) = s.
Proof.
  induction s as [|c s IH]; simpl; [reflexivity|].
  destruct (Ascii.eqb_spec c sep) as [->|Hne].
  - pose proof (Split_byte_not_nil s) as Hnil.
    simpl. destruct (Split_byte sep s) as [|seg segs]; [contradiction|].
    simpl in *. now rewrite IH.
  - pose proof (Split_byte_not_nil s) as Hnil.
    destruct (Split_byte sep s) as [|seg segs]; [contradiction|].
    simpl in *. destruct segs as [|seg' segs]; simpl in *; now rewrite <- IH.
Qed.

(** No segment contains the separator. *)
Lemma Split_byte_segments (s : string) :
  Forall (fun seg => contains_byte sep seg = false) (Split_byte sep s).
Proof.
  induction s as [|c s IH]; simpl.
  - repeat constructor.
  - destruct (Ascii.eqb c sep) eqn:Hc.
    + constructor; [reflexivity | exact IH].
    + destruct (Split_byte sep s) as [|seg segs].
      * repeat constructor. simpl. now rewrite Hc.
      * inversion IH as [|? ? Hseg Hsegs]; subst.
        constructor; [|exact Hsegs]. simpl. now rewrite Hc, Hseg.
Qed.

(** A string without separator is its own and only segment. *)
Lemma Split_byte_whole (s : string) :
  contains_byte sep s = false -> Split_byte sep s = [s].
Proof.
  induction s as [|c s IH]; simpl; [reflexivity|].
  intros [Hc Hs]%orb_false_elim. rewrite Hc, (IH Hs). reflexivity.
Qed.

(** The first segment is what stands before the first separator. *)
Lemma Split_byte_first (pre rest : string) :
  contains_byte sep pre = false ->
  Split_byte sep (pre +:+ String sep rest) = pre :: Split_byte sep rest.
Proof.
  induction pre as [|c pre IH]; simpl.
  - intros _. now rewrite Ascii.eqb_refl.
  - intros [Hc Hpre]%orb_false_elim. now rewrite Hc, (IH Hpre).
Qed.
End Split.

Lemma namespace_first_segment (kw : string) :
  namespace kw = hd "" (strings_Split_dot kw).
Proof.
  unfold namespace. simpl.
  destruct (strings_Split_dot kw); reflexivity.
Qed.

(** ** The pieces of [VersionsForRole] *)

(** No integer is both below 200 and at least 300: the test of line 86
    holds for no status code. *)
Lemma status_guard_false (code : Z) :
  ((code <? 200) && (code >=? 300))%Z = false.
Proof.
  destruct (Z.ltb_spec code 200) as [Hlt|Hge]; simpl; [|reflexivity].
  rewrite Z.geb_leb. apply Z.leb_gt. lia.
Qed.

Lemma Values_Add_empty (key value : string) :
  Values_Add ∅ key value = {[key := [value]]}.
Proof.
  unfold Values_Add. rewrite lookup_empty. simpl. apply insert_empty.
Qed.

(** The loop of lines 133-135, started at index [length done] on a slice
    whose first part [done] is written, writes the names of [vs] after it. *)
Lemma fill_versions_app (vs : list versionEntry) (done : list string) :
  fill_versions vs (length done) (done ++ make_strings (length vs))
  = done ++ map version_Name vs.
Proof.
  revert done. induction vs as [|v vs IH]; intros done; simpl.
  - reflexivity.
  - unfold make_strings in *. simpl.
    rewrite insert_app_r_alt by lia.
    rewrite Nat.sub_diag. simpl.
    specialize (IH (done ++ [version_Name v])).
    rewrite length_app, <- !app_assoc in IH. simpl in IH.
    rewrite Nat.add_1_r in IH. exact IH.
Qed.

Lemma versions_map (m : galaxyResult) :
  versions m = map version_Name (Versions (SummaryFields m)).
Proof.
  unfold versions. simpl. exact (fill_versions_app _ []).
Qed.

Lemma scan_results_first (pre post : list galaxyResult) (e : galaxyResult)
    (ns : string) :
  Forall (fun c => namespace_of c <> ns) pre ->
  namespace_of e = ns ->
  scan_results (pre ++ e :: post) ns = Some e.
Proof.
  intros Hpre He. induction Hpre as [|c pre Hc _ IH]; simpl.
  - now rewrite He, String.eqb_refl.
  - destruct (String.eqb_spec (namespace_of c) ns);
      [contradiction | exact IH].
Qed.

Lemma scan_results_none (results : list galaxyResult) (ns : string) :
  Forall (fun c => namespace_of c <> ns) results ->
  scan_results results ns = None.
Proof.
  induction 1 as [|c rest Hc _ IH]; simpl; [reflexivity|].
  destruct (String.eqb_spec (namespace_of c) ns);
    [contradiction | exact IH].
Qed.

(** What the scan returns is an entry of the list with the namespace asked
    for, and nothing before it has that namespace. *)
Lemma scan_results_Some (results : list galaxyResult) (ns : string)
    (e : galaxyResult) :
  scan_results results ns = Some e ->
  exists pre post,
    results = pre ++ e :: post
    /\ Forall (fun c => namespace_of c <> ns) pre
    /\ namespace_of e = ns.
Proof.
  induction results as [|c rest IH]; simpl; [discriminate|].
  destruct (String.eqb_spec (namespace_of c) ns)
    as [Heq|Hne].
  - intros [= <-]. exists [], rest. repeat split; [constructor | exact Heq].
  - intros (pre & post & -> & Hpre & He)%IH.
    exists (c :: pre), post. repeat split; [constructor; assumption | exact He].
Qed.

(** ** [VersionsForRole] as a whole *)

Ltac run_provider :=
  unfold returned, sent, call, VersionsForRole, mbind, M_bind, lift, Do,
    fail, mret, M_ret;
  rewrite ?Values_Add_empty;
  unfold search_request, search_url in *; simpl in *.

Section Lookup.
Variables (env : Env) (g : AnsibleGalaxy) (ctx : context_Context) (r : Role).

(** Once the registry has answered and the body is decoded, the call is
    decided by the choice of the entry alone; the status code plays no
    part. *)
Lemma call_Answers (resp : Response) (results : searchResults) :
  Answers env g ctx r resp results ->
  returned env g ctx r =
    match matching (Results results) (namespace (keywords r)) with
    | None => Err (UnableToFindRole (keywords r))
    | Some m => Ok (versions m)
    end.
Proof.
  intros [u req body Hu Hreq Hresp Hbody Hjson].
  run_provider.
  rewrite Hu. simpl. rewrite Hreq. simpl. rewrite Hresp. simpl.
  rewrite status_guard_false, Hbody. simpl. rewrite Hjson. simpl.
  destruct (matching _ _); reflexivity.
Qed.

(** A call that returns versions went through a full exchange with the
    registry and chose an entry. *)
Lemma call_Ok_inv (vs : list string) :
  returned env g ctx r = Ok vs ->
  exists resp results m,
    Answers env g ctx r resp results
    /\ matching (Results results) (namespace (keywords r)) = Some m
    /\ vs = versions m.
Proof.
  run_provider.
  destruct (url_Parse env _) as [u|] eqn:Hu; simpl; [|discriminate].
  destruct (http_NewRequestWithContext env ctx _ _) as [req|] eqn:Hreq;
    simpl; [|discriminate].
  destruct (client_Do env _) as [resp|] eqn:Hresp; simpl; [|discriminate].
  rewrite status_guard_false.
  destruct (Body resp) as [body|] eqn:Hbody; simpl; [|discriminate].
  destruct (json_Unmarshal env body) as [results|] eqn:Hjson; simpl;
    [|discriminate].
  destruct (matching _ _) as [m|] eqn:Hm; simpl; [|discriminate].
  intros [= <-]. exists resp, results, m.
  split; [|split; [exact Hm | reflexivity]].
  now apply (Answers_intro _ _ _ _ _ _ u req body).
Qed.

(** A call sends nothing, or exactly one request: the one built from the
    parsed search URL with the keyword as its only query parameter. *)
Lemma call_sent :
  sent env g ctx r = []
  \/ exists u req,
       url_Parse env (baseURL g +:+ "/api/v1/search/roles/") = Ok u
       /\ http_NewRequestWithContext env ctx "GET" (search_url env u r)
          = Ok req
       /\ sent env g ctx r = [search_request req].
Proof.
  run_provider.
  destruct (url_Parse env _) as [u|] eqn:Hu; simpl; [|now left].
  destruct (http_NewRequestWithContext env ctx _ _) as [req|] eqn:Hreq;
    simpl; [|now left].
  right. exists u, req. split; [reflexivity|]. split; [exact Hreq|].
  destruct (client_Do env _) as [resp|]; simpl; [|reflexivity].
  rewrite status_guard_false.
  destruct (Body resp) as [body|]; simpl; [|reflexivity].
  destruct (json_Unmarshal env body) as [results|]; simpl; [|reflexivity].
  destruct (matching _ _); reflexivity.
Qed.

(** A body that cannot be read or decoded fails the call. *)
Lemma call_undecodable (u : URL) (req : Request) (resp : Response) :
  url_Parse env (baseURL g +:+ "/api/v1/search/roles/") = Ok u ->
  http_NewRequestWithContext env ctx "GET" (search_url env u r) = Ok req ->
  client_Do env (search_request req) = Ok resp ->
  (forall body, Body resp = Ok body ->
                exists e, json_Unmarshal env body = Err e) ->
  exists e, returned env g ctx r = Err e.
Proof.
  intros Hu Hreq Hresp Hbad.
  run_provider.
  rewrite Hu. simpl. rewrite Hreq. simpl. rewrite Hresp. simpl.
  rewrite status_guard_false.
  destruct (Body resp) as [body|e] eqn:Hbody; simpl; [|now exists e].
  destruct (Hbad body eq_refl) as [e He]. rewrite He. simpl. now exists e.
Qed.
End Lookup.

(** The fixture registry answers every lookup. *)
Lemma registry_Answers (code : Z) (results : list galaxyResult)
    (g : AnsibleGalaxy) (ctx : context_Context) (r : Role) :
  Answers (Fixtures.registry code results) g ctx r
    {| StatusCode := code; Body := Ok "{...}" |} (Fixtures.decoded results).
Proof. econstructor; reflexivity. Qed.

(** ** The claims of the specification *)

(** C1, on the code: whatever status code the registry answers with, 404 and
    500 among them, a lookup whose body decodes to one entry returns that
    entry's versions and no error.  The test of line 86 joins its two
    comparisons with [&&], so it never holds. *)
Theorem status_code_is_ignored (code : Z) :
  returned (Fixtures.registry code [Fixtures.entry "ns" ["v1.1.0"; "v1.0.0"]])
    Fixtures.galaxy Fixtures.ctx Fixtures.ns_role
  = Ok ["v1.1.0"; "v1.0.0"].
Proof.
  rewrite (call_Answers _ _ _ _ _ _ (registry_Answers code _ _ _ _)).
  reflexivity.
Qed.

(** C2, as the spec states it, fails: the keyword "geerlingguy" has no [.]
    separator, and its expected namespace is not the empty string but the
    keyword itself. *)
Lemma namespace_without_separator_not_empty :
  contains_byte "." "geerlingguy" = false
  /\ namespace "geerlingguy" = "geerlingguy"
  /\ namespace "geerlingguy" <> "".
Proof. repeat split. discriminate. Qed.

(** C2, amended: the expected namespace is the first segment of the keyword
    split on [.], that is, what stands before the first [.]; for a keyword
    without [.] it is the whole keyword. *)
Theorem namespace_is_first_segment (kw : string) :
  namespace kw = hd "" (strings_Split_dot kw)
  /\ (forall pre rest : string,
        contains_byte "." pre = false -> kw = pre +:+ "." +:+ rest ->
        namespace kw = pre)
  /\ (contains_byte "." kw = false -> namespace kw = kw).
Proof.
  split; [apply namespace_first_segment|]. split.
  - intros pre rest Hpre ->. rewrite namespace_first_segment.
    unfold strings_Split_dot.
    change ("." +:+ rest) with (String "."%char rest).
    now rewrite Split_byte_first.
  - intros Hkw. rewrite namespace_first_segment.
    unfold strings_Split_dot. now rewrite Split_byte_whole.
Qed.

Lemma namespace_is_first_segment_witness :
  namespace "ns.role" = "ns" /\ namespace "role" = "role".
Proof.
  split.
  - destruct (namespace_is_first_segment "ns.role") as (_ & Hfirst & _).
    apply (Hfirst "ns" "role"); reflexivity.
  - destruct (namespace_is_first_segment "role") as (_ & _ & Hwhole).
    apply Hwhole. reflexivity.
Defined.

(** C3: when the registry returns exactly one entry, that entry is chosen
    and its versions are returned, whatever its namespace. *)
Theorem single_entry_is_selected (env : Env) (g : AnsibleGalaxy)
    (ctx : context_Context) (r : Role) (resp : Response)
    (results : searchResults) (e : galaxyResult) :
  Answers env g ctx r resp results ->
  Results results = [e] ->
  matching (Results results) (namespace (keywords r)) = Some e
  /\ returned env g ctx r = Ok (names_of e).
Proof.
  intros Hans He. rewrite (call_Answers _ _ _ _ _ _ Hans), He.
  split; [reflexivity|]. simpl. now rewrite versions_map.
Qed.

Lemma single_entry_is_selected_witness :
  namespace_of (Fixtures.entry "other" ["v1.1.0"; "v1.0.0"])
    <> namespace (keywords Fixtures.ns_role)
  /\ returned
       (Fixtures.registry 200 [Fixtures.entry "other" ["v1.1.0"; "v1.0.0"]])
       Fixtures.galaxy Fixtures.ctx Fixtures.ns_role
     = Ok ["v1.1.0"; "v1.0.0"].
Proof.
  split; [discriminate|].
  apply (single_entry_is_selected _ _ _ _ _ _
           (Fixtures.entry "other" ["v1.1.0"; "v1.0.0"])
           (registry_Answers 200 _ _ _ _)).
  reflexivity.
Defined.

(** C4: when the registry returns no entry or more than one, the entry
    chosen is the first, in the order returned, whose namespace is the
    expected namespace, byte for byte; its versions are returned. *)
Theorem first_matching_entry_is_selected (env : Env) (g : AnsibleGalaxy)
    (ctx : context_Context) (r : Role) (resp : Response)
    (results : searchResults) (e : galaxyResult) :
  Answers env g ctx r resp results ->
  length (Results results) <> 1%nat ->
  (matching (Results results) (namespace (keywords r)) = Some e
   <-> exists pre post,
         Results results = pre ++ e :: post
         /\ Forall (fun c => namespace_of c <> namespace (keywords r)) pre
         /\ namespace_of e = namespace (keywords r))
  /\ (matching (Results results) (namespace (keywords r)) = Some e ->
      returned env g ctx r = Ok (names_of e)).
Proof.
  intros Hans Hlen. unfold matching.
  destruct (Nat.eqb_spec (length (Results results)) 1) as [|_];
    [contradiction|].
  split; [split|].
  - apply scan_results_Some.
  - intros (pre & post & -> & Hpre & He). now apply scan_results_first.
  - intros Hm. rewrite (call_Answers _ _ _ _ _ _ Hans). unfold matching.
    destruct (Nat.eqb_spec (length (Results results)) 1) as [|_];
      [contradiction|].
    now rewrite Hm, versions_map.
Qed.

Lemma first_matching_entry_is_selected_witness :
  returned
    (Fixtures.registry 200
       [Fixtures.entry "NS" ["v9"]; Fixtures.entry "other" ["v3"];
        Fixtures.entry "ns" ["v2"; "v1"]; Fixtures.entry "ns" ["v0"]])
    Fixtures.galaxy Fixtures.ctx Fixtures.ns_role
  = Ok ["v2"; "v1"].
Proof.
  refine (proj2 (first_matching_entry_is_selected _ _ _ _ _ _
                   (Fixtures.entry "ns" ["v2"; "v1"])
                   (registry_Answers 200 _ _ _ _) _) _).
  - simpl. lia.
  - reflexivity.
Defined.

(** C5: when the registry returns no entry, or several entries none of which
    has the expected namespace, no entry is chosen and [VersionsForRole]
    returns the error "unable to find role"; the resolver turns it into an
    [Unresolved] result without a latest version, and in a run over a
    manifest the dependencies before and after are resolved all the same. *)
Theorem unmatched_lookup_is_unresolved (env : Env) (g : AnsibleGalaxy)
    (ctx : context_Context) (r : Role) (resp : Response)
    (results : searchResults) :
  Answers env g ctx r resp results ->
  Results results = []
  \/ ((1 < length (Results results))%nat
      /\ Forall (fun c => namespace_of c <> namespace (keywords r))
           (Results results)) ->
  matching (Results results) (namespace (keywords r)) = None
  /\ returned env g ctx r = Err (UnableToFindRole (keywords r))
  /\ resolve env g ctx r
     = {| reference := r; latestVersion := None; status := Unresolved |}
  /\ forall before after : list Role,
       resolveAll env g ctx (before ++ r :: after)
       = resolveAll env g ctx before
         ++ {| reference := r; latestVersion := None; status := Unresolved |}
         :: resolveAll env g ctx after.
Proof.
  intros Hans Hcase.
  assert (Hnone : matching (Results results) (namespace (keywords r)) = None).
  { destruct Hcase as [-> | [Hlen Hall]]; [reflexivity|].
    unfold matching.
    destruct (Nat.eqb_spec (length (Results results)) 1) as [Hone|_]; [lia|].
    now apply scan_results_none. }
  assert (Herr : returned env g ctx r = Err (UnableToFindRole (keywords r))).
  { now rewrite (call_Answers _ _ _ _ _ _ Hans), Hnone. }
  assert (Hres : resolve env g ctx r
                 = {| reference := r; latestVersion := None;
                      status := Unresolved |}).
  { unfold resolve. now rewrite Herr. }
  repeat split; try assumption.
  intros before after. unfold resolveAll.
  rewrite map_app. simpl. now rewrite Hres.
Qed.

Lemma unmatched_lookup_is_unresolved_witness :
  returned (Fixtures.registry 200 []) Fixtures.galaxy Fixtures.ctx
    Fixtures.ghost_role
  = Err (UnableToFindRole "ghost.role")
  /\ status
       (resolve
          (Fixtures.registry 200
             [Fixtures.entry "other" ["v2"]; Fixtures.entry "NS" ["v1"]])
          Fixtures.galaxy Fixtures.ctx Fixtures.ns_role)
     = Unresolved.
Proof.
  split.
  - destruct (unmatched_lookup_is_unresolved _ _ _ _ _ _
                (registry_Answers 200 [] Fixtures.galaxy Fixtures.ctx
                   Fixtures.ghost_role))
      as (_ & Herr & _).
    + left. reflexivity.
    + exact Herr.
  - destruct (unmatched_lookup_is_unresolved _ _ _ _ _ _
                (registry_Answers 200
                   [Fixtures.entry "other" ["v2"]; Fixtures.entry "NS" ["v1"]]
                   Fixtures.galaxy Fixtures.ctx Fixtures.ns_role))
      as (_ & _ & Hres & _).
    + right. split; [simpl; lia|].
      repeat constructor; discriminate.
    + rewrite Hres. reflexivity.
Defined.

(** C6: the search keyword is the role's source when that is a non-empty
    string, and the role's name otherwise; every request a lookup sends
    carries that keyword as its one query parameter [keywords]. *)
Theorem keyword_is_source_or_name (r : Role) :
  (Source r <> "" -> keywords r = Source r)
  /\ (Source r = "" -> keywords r = Name r)
  /\ forall (env : Env) (g : AnsibleGalaxy) (ctx : context_Context),
       sent env g ctx r = []
       \/ exists u req,
            url_Parse env (baseURL g +:+ "/api/v1/search/roles/") = Ok u
            /\ http_NewRequestWithContext env ctx "GET"
                 (URL_String env
                    (set_RawQuery u
                       (Values_Encode env {["keywords" := [keywords r]]})))
               = Ok req
            /\ sent env g ctx r = [search_request req].
Proof.
  unfold keywords. repeat split.
  - destruct (Source r); [contradiction | reflexivity].
  - intros ->. reflexivity.
  - intros env g ctx. apply call_sent.
Qed.

Lemma keyword_is_source_or_name_witness :
  keywords Fixtures.forked_role = "fork.role"
  /\ keywords Fixtures.ns_role = "ns.role".
Proof.
  split.
  - destruct (keyword_is_source_or_name Fixtures.forked_role) as (Hsrc & _).
    apply Hsrc. discriminate.
  - destruct (keyword_is_source_or_name Fixtures.ns_role) as (_ & Hname & _).
    apply Hname. reflexivity.
Defined.

(** C7: a lookup that succeeds returns the names of the chosen entry's
    versions, one per version and in the order the registry listed them:
    nothing is sorted, dropped, merged or rewritten.  The resolver takes the
    head of that list as the latest version. *)
Theorem versions_in_registry_order (env : Env) (g : AnsibleGalaxy)
    (ctx : context_Context) (r : Role) (vs : list string) :
  returned env g ctx r = Ok vs ->
  (exists resp results m,
     Answers env g ctx r resp results
     /\ matching (Results results) (namespace (keywords r)) = Some m
     /\ vs = names_of m
     /\ forall i : nat,
          vs !! i = version_Name <$> Versions (SummaryFields m) !! i)
  /\ latestVersion (resolve env g ctx r) = head vs.
Proof.
  intros Hok. split.
  - destruct (call_Ok_inv _ _ _ _ _ Hok)
      as (resp & results & m & Hans & Hm & ->).
    exists resp, results, m. rewrite versions_map.
    repeat split; try assumption.
    intros i. apply list_lookup_fmap.
  - unfold resolve. rewrite Hok. destruct vs; reflexivity.
Qed.

Lemma versions_in_registry_order_witness :
  latestVersion
    (resolve
       (Fixtures.registry 200
          [Fixtures.entry "ns" ["v1.0.0"; "v1.1.0"; "v1.0.0"]])
       Fixtures.galaxy Fixtures.ctx Fixtures.ns_role)
  = Some "v1.0.0".
Proof.
  apply (versions_in_registry_order _ _ _ _ ["v1.0.0"; "v1.1.0"; "v1.0.0"]).
  reflexivity.
Defined.

(** C8: a result of [resolve] with status [Outdated] has a latest version,
    and it differs from the declared version; a result with status
    [Unresolved] has no latest version. *)
Theorem resolve_invariant (env : Env) (g : AnsibleGalaxy)
    (ctx : context_Context) (ref : Role) :
  (status (resolve env g ctx ref) = Outdated ->
   exists latest,
     latestVersion (resolve env g ctx ref) = Some latest
     /\ latest <> Version ref)
  /\ (status (resolve env g ctx ref) = Unresolved ->
      latestVersion (resolve env g ctx ref) = None).
Proof.
  unfold resolve.
  destruct (returned env g ctx ref) as [[|latest rest]|e]; simpl.
  - split; [discriminate | reflexivity].
  - destruct (String.eqb_spec latest (Version ref)) as [Heq|Hne].
    + split; discriminate.
    + split; [|discriminate]. intros _. now exists latest.
  - split; [discriminate | reflexivity].
Qed.

Lemma resolve_invariant_witness :
  exists latest,
    latestVersion
      (resolve
         (Fixtures.registry 200 [Fixtures.entry "ns" ["v1.1.0"; "v1.0.0"]])
         Fixtures.galaxy Fixtures.ctx Fixtures.ns_role)
    = Some latest
    /\ latest <> "v1.0.0".
Proof.
  apply (resolve_invariant
           (Fixtures.registry 200 [Fixtures.entry "ns" ["v1.1.0"; "v1.0.0"]])
           Fixtures.galaxy Fixtures.ctx Fixtures.ns_role).
  reflexivity.
Defined.

(** C9: a client built from the empty string has the base URL
    "https://galaxy.ansible.com", a client built from any other string has
    that string; every request a lookup sends through the client is built
    from that base URL followed by the search path. *)
Theorem base_url_fixed_at_construction (base : string) :
  baseURL (NewAnsibleGalaxy "") = "https://galaxy.ansible.com"
  /\ (base <> "" -> baseURL (NewAnsibleGalaxy base) = base)
  /\ forall (env : Env) (ctx : context_Context) (r : Role) (req : Request),
       req ∈ sent env (NewAnsibleGalaxy base) ctx r ->
       exists u req0,
         url_Parse env
           ((if String.eqb base "" then "https://galaxy.ansible.com" else base)
            +:+ "/api/v1/search/roles/") = Ok u
         /\ http_NewRequestWithContext env ctx "GET" (search_url env u r)
            = Ok req0
         /\ req = search_request req0.
Proof.
  split; [reflexivity|]. split.
  - intros Hbase. unfold NewAnsibleGalaxy.
    destruct (String.eqb_spec base ""); [contradiction | reflexivity].
  - intros env ctx r req Hin.
    destruct (call_sent env (NewAnsibleGalaxy base) ctx r)
      as [Hnil | (u & req0 & Hu & Hreq & Hsent)].
    + rewrite Hnil in Hin. inversion Hin.
    + rewrite Hsent in Hin. apply list_elem_of_singleton in Hin as ->.
      exists u, req0. split; [|split; [exact Hreq | reflexivity]].
      unfold NewAnsibleGalaxy in Hu.
      destruct (String.eqb base ""); exact Hu.
Qed.

Lemma base_url_fixed_at_construction_witness :
  baseURL (NewAnsibleGalaxy "http://localhost:8080") = "http://localhost:8080"
  /\ exists u req0,
       url_Parse (Fixtures.registry 200 [])
         ("http://localhost:8080" +:+ "/api/v1/search/roles/") = Ok u
       /\ http_NewRequestWithContext (Fixtures.registry 200 []) Fixtures.ctx
            "GET" (search_url (Fixtures.registry 200 []) u Fixtures.ns_role)
          = Ok req0
       /\ search_request
            {| Method := "GET";
               RequestURL :=
                 "http://localhost:8080/api/v1/search/roles/?keywords=ns.role";
               Header := ∅ |}
          = search_request req0.
Proof.
  split.
  - apply (base_url_fixed_at_construction "http://localhost:8080").
    discriminate.
  - destruct (base_url_fixed_at_construction "http://localhost:8080")
      as (_ & _ & Hsent).
    apply (Hsent (Fixtures.registry 200 []) Fixtures.ctx Fixtures.ns_role).
    apply list_elem_of_singleton. reflexivity.
Defined.

(** C10: when the chosen entry has no version, [VersionsForRole] returns the
    empty list and no error. *)
Theorem empty_version_list_is_not_an_error (env : Env) (g : AnsibleGalaxy)
    (ctx : context_Context) (r : Role) (resp : Response)
    (results : searchResults) (m : galaxyResult) :
  Answers env g ctx r resp results ->
  matching (Results results) (namespace (keywords r)) = Some m ->
  Versions (SummaryFields m) = [] ->
  returned env g ctx r = Ok [].
Proof.
  intros Hans Hm Hvs.
  now rewrite (call_Answers _ _ _ _ _ _ Hans), Hm, versions_map, Hvs.
Qed.

Lemma empty_version_list_is_not_an_error_witness :
  returned (Fixtures.registry 200 [Fixtures.entry "ns" []]) Fixtures.galaxy
    Fixtures.ctx Fixtures.ns_role
  = Ok [].
Proof.
  apply (empty_version_list_is_not_an_error _ _ _ _ _ _
           (Fixtures.entry "ns" []) (registry_Answers 200 _ _ _ _));
    reflexivity.
Defined.

(** * Further properties of the provider *)

(** ** Failures of the library calls *)

Section Failures.
Variables (env : Env) (g : AnsibleGalaxy) (ctx : context_Context) (r : Role).

(** A failed library call fails the lookup with the library's own error. *)
Lemma call_LibraryFailure (e : error) :
  LibraryFailure env g ctx r e -> returned env g ctx r = Err e.
Proof.
  intros [Hu | u Hu Hreq | u req Hu Hreq Hresp | u req resp Hu Hreq Hresp Hbody
         | u req resp body Hu Hreq Hresp Hbody Hjson];
    run_provider; rewrite Hu; simpl; try reflexivity;
    rewrite Hreq; simpl; try reflexivity;
    rewrite Hresp; simpl; try reflexivity;
    rewrite status_guard_false, Hbody; simpl; try reflexivity;
    rewrite Hjson; reflexivity.
Qed.

(** Every error of a lookup is a library's error or the provider's own
    "unable to find role". *)
Lemma call_Err_inv (e : error) :
  returned env g ctx r = Err e ->
  LibraryFailure env g ctx r e
  \/ exists resp results,
       Answers env g ctx r resp results
       /\ matching (Results results) (namespace (keywords r)) = None
       /\ e = UnableToFindRole (keywords r).
Proof.
  intros Herr.
  destruct (url_Parse env (baseURL g +:+ "/api/v1/search/roles/"))
    as [u|e0] eqn:Hu.
  2:{ left. apply Failure_url_Parse. rewrite Hu. f_equal.
      revert Herr. run_provider. rewrite Hu. simpl. congruence. }
  destruct (http_NewRequestWithContext env ctx "GET" (search_url env u r))
    as [req|e0] eqn:Hreq.
  2:{ left. apply (Failure_NewRequest _ _ _ _ _ u Hu). rewrite Hreq. f_equal.
      revert Herr. run_provider. rewrite Hu. simpl. rewrite Hreq. simpl.
      congruence. }
  destruct (client_Do env (search_request req)) as [resp|e0] eqn:Hresp.
  2:{ left. apply (Failure_Do _ _ _ _ _ u req Hu Hreq). rewrite Hresp. f_equal.
      revert Herr. run_provider. rewrite Hu. simpl. rewrite Hreq. simpl.
      rewrite Hresp. simpl. congruence. }
  destruct (Body resp) as [body|e0] eqn:Hbody.
  2:{ left. apply (Failure_ReadAll _ _ _ _ _ u req resp Hu Hreq Hresp).
      rewrite Hbody. f_equal.
      revert Herr. run_provider. rewrite Hu. simpl. rewrite Hreq. simpl.
      rewrite Hresp. simpl. rewrite status_guard_false, Hbody. simpl.
      congruence. }
  destruct (json_Unmarshal env body) as [results|e0] eqn:Hjson.
  2:{ left.
      apply (Failure_Unmarshal _ _ _ _ _ u req resp body Hu Hreq Hresp Hbody).
      rewrite Hjson. f_equal.
      revert Herr. run_provider. rewrite Hu. simpl. rewrite Hreq. simpl.
      rewrite Hresp. simpl. rewrite status_guard_false, Hbody. simpl.
      rewrite Hjson. simpl. congruence. }
  right. exists resp, results.
  assert (Hans : Answers env g ctx r resp results)
    by exact (Answers_intro _ _ _ _ _ _ u req body Hu Hreq Hresp Hbody Hjson).
  rewrite (call_Answers _ _ _ _ _ _ Hans) in Herr.
  split; [exact Hans|].
  destruct (matching _ _); [discriminate|].
  split; [reflexivity | congruence].
Qed.

(** The wire after a lookup, by how far the lookup got. *)
Lemma sent_before_request :
  (exists e, url_Parse env (baseURL g +:+ "/api/v1/search/roles/") = Err e)
  \/ (exists u e,
        url_Parse env (baseURL g +:+ "/api/v1/search/roles/") = Ok u
        /\ http_NewRequestWithContext env ctx "GET" (search_url env u r)
           = Err e) ->
  sent env g ctx r = [].
Proof.
  intros [[e Hu] | (u & e & Hu & Hreq)]; run_provider; rewrite Hu; simpl;
    [reflexivity|]. rewrite Hreq. reflexivity.
Qed.

Lemma sent_after_request (u : URL) (req : Request) :
  url_Parse env (baseURL g +:+ "/api/v1/search/roles/") = Ok u ->
  http_NewRequestWithContext env ctx "GET" (search_url env u r) = Ok req ->
  sent env g ctx r = [search_request req].
Proof.
  intros Hu Hreq.
  destruct (call_sent env g ctx r) as [Hnil | (u' & req' & Hu' & Hreq' & Hs)].
  - revert Hnil. run_provider. rewrite Hu. simpl. rewrite Hreq. simpl.
    destruct (client_Do env _) as [resp|]; simpl; [|discriminate].
    rewrite status_guard_false.
    destruct (Body resp) as [body|]; simpl; [|discriminate].
    destruct (json_Unmarshal env body) as [results|]; simpl; [|discriminate].
    destruct (matching _ _); discriminate.
  - rewrite Hu in Hu'. injection Hu' as <-.
    rewrite Hreq in Hreq'. injection Hreq' as <-. exact Hs.
Qed.
End Failures.

Lemma call_pair (env : Env) (g : AnsibleGalaxy) (ctx : context_Context)
    (r : Role) :
  call env g ctx r = (returned env g ctx r, sent env g ctx r).
Proof. unfold returned, sent. now destruct (call env g ctx r). Qed.

(** X1: when [url.Parse] rejects the search URL, the lookup returns that
    very error and hands no request to the HTTP client. *)
Theorem url_parse_failure_sends_nothing (env : Env) (g : AnsibleGalaxy)
    (ctx : context_Context) (r : Role) (e : error) :
  url_Parse env (baseURL g +:+ "/api/v1/search/roles/") = Err e ->
  call env g ctx r = (Err e, []).
Proof.
  intros Hu. rewrite call_pair. f_equal.
  - apply call_LibraryFailure. now apply Failure_url_Parse.
  - apply sent_before_request. left. now exists e.
Qed.

Lemma url_parse_failure_sends_nothing_witness :
  call
    (Fixtures.scripted (Err (LibraryError "invalid control character in URL"))
       (Ok Fixtures.plain_request) (Ok {| StatusCode := 200; Body := Ok "{}" |})
       (Ok (Fixtures.decoded [Fixtures.entry "ns" ["v1"]])))
    (NewAnsibleGalaxy (String "010"%char "galaxy")) Fixtures.ctx
    Fixtures.ns_role
  = (Err (LibraryError "invalid control character in URL"), []).
Proof.
  apply url_parse_failure_sends_nothing. reflexivity.
Defined.

(** X2: when [http.NewRequestWithContext] fails, the lookup returns that
    very error and hands no request to the HTTP client. *)
Theorem request_failure_sends_nothing (env : Env) (g : AnsibleGalaxy)
    (ctx : context_Context) (r : Role) (u : URL) (e : error) :
  url_Parse env (baseURL g +:+ "/api/v1/search/roles/") = Ok u ->
  http_NewRequestWithContext env ctx "GET" (search_url env u r) = Err e ->
  call env g ctx r = (Err e, []).
Proof.
  intros Hu Hreq. rewrite call_pair. f_equal.
  - apply call_LibraryFailure. now apply (Failure_NewRequest _ _ _ _ _ u).
  - apply sent_before_request. right. now exists u, e.
Qed.

Lemma request_failure_sends_nothing_witness :
  call
    (Fixtures.scripted (Ok Fixtures.search_location)
       (Err (LibraryError "net/http: nil Context"))
       (Ok {| StatusCode := 200; Body := Ok "{}" |})
       (Ok (Fixtures.decoded [Fixtures.entry "ns" ["v1"]])))
    Fixtures.galaxy Fixtures.ctx Fixtures.ns_role
  = (Err (LibraryError "net/http: nil Context"), []).
Proof.
  apply (request_failure_sends_nothing _ _ _ _ Fixtures.search_location);
    reflexivity.
Defined.

(** X3: when [client.Do] fails (no connection, timeout), the lookup returns
    that very error; the one request it built is the only thing it sent. *)
Theorem transport_failure_is_returned (env : Env) (g : AnsibleGalaxy)
    (ctx : context_Context) (r : Role) (u : URL) (req : Request) (e : error) :
  url_Parse env (baseURL g +:+ "/api/v1/search/roles/") = Ok u ->
  http_NewRequestWithContext env ctx "GET" (search_url env u r) = Ok req ->
  client_Do env (search_request req) = Err e ->
  call env g ctx r = (Err e, [search_request req]).
Proof.
  intros Hu Hreq Hresp. rewrite call_pair. f_equal.
  - apply call_LibraryFailure. now apply (Failure_Do _ _ _ _ _ u req).
  - now apply (sent_after_request _ _ _ _ u).
Qed.

Lemma transport_failure_is_returned_witness :
  call
    (Fixtures.scripted (Ok Fixtures.search_location)
       (Ok Fixtures.plain_request) (Err Fixtures.timeout)
       (Ok (Fixtures.decoded [Fixtures.entry "ns" ["v1"]])))
    Fixtures.galaxy Fixtures.ctx Fixtures.ns_role
  = (Err Fixtures.timeout, [search_request Fixtures.plain_request]).
Proof.
  apply (transport_failure_is_returned _ _ _ _ Fixtures.search_location);
    reflexivity.
Defined.

(** X4: when the body of the response cannot be read, or cannot be decoded,
    the lookup returns the error of [ioutil.ReadAll] or of [json.Unmarshal]
    as it is, after its one request. *)
Theorem body_failure_is_returned (env : Env) (g : AnsibleGalaxy)
    (ctx : context_Context) (r : Role) (u : URL) (req : Request)
    (resp : Response) (e : error) :
  url_Parse env (baseURL g +:+ "/api/v1/search/roles/") = Ok u ->
  http_NewRequestWithContext env ctx "GET" (search_url env u r) = Ok req ->
  client_Do env (search_request req) = Ok resp ->
  Body resp = Err e
  \/ (exists body, Body resp = Ok body /\ json_Unmarshal env body = Err e) ->
  call env g ctx r = (Err e, [search_request req]).
Proof.
  intros Hu Hreq Hresp Hbad. rewrite call_pair. f_equal.
  - apply call_LibraryFailure. destruct Hbad as [Hbody | (body & Hbody & Hjson)].
    + now apply (Failure_ReadAll _ _ _ _ _ u req resp).
    + now apply (Failure_Unmarshal _ _ _ _ _ u req resp body).
  - now apply (sent_after_request _ _ _ _ u).
Qed.

Lemma body_failure_is_returned_witness :
  call
    (Fixtures.scripted (Ok Fixtures.search_location)
       (Ok Fixtures.plain_request)
       (Ok {| StatusCode := 200; Body := Ok "<html>" |})
       (Err (LibraryError "invalid character '<' looking for beginning of value")))
    Fixtures.galaxy Fixtures.ctx Fixtures.ns_role
  = (Err (LibraryError "invalid character '<' looking for beginning of value"),
     [search_request Fixtures.plain_request])
  /\ call
       (Fixtures.scripted (Ok Fixtures.search_location)
          (Ok Fixtures.plain_request)
          (Ok {| StatusCode := 200;
                 Body := Err (LibraryError "unexpected EOF") |})
          (Ok (Fixtures.decoded [Fixtures.entry "ns" ["v1"]])))
       Fixtures.galaxy Fixtures.ctx Fixtures.ns_role
     = (Err (LibraryError "unexpected EOF"),
        [search_request Fixtures.plain_request]).
Proof.
  split.
  - apply (body_failure_is_returned _ _ _ _ Fixtures.search_location
             Fixtures.plain_request
             {| StatusCode := 200; Body := Ok "<html>" |});
      try reflexivity.
    right. exists "<html>". split; reflexivity.
  - apply (body_failure_is_returned _ _ _ _ Fixtures.search_location
             Fixtures.plain_request
             {| StatusCode := 200;
                Body := Err (LibraryError "unexpected EOF") |});
      try reflexivity.
    left. reflexivity.
Defined.

(** X5: a lookup hands at most one request to the HTTP client, and none
    exactly when building the request failed ([url.Parse] or
    [http.NewRequestWithContext] returned an error). *)
Theorem at_most_one_request (env : Env) (g : AnsibleGalaxy)
    (ctx : context_Context) (r : Role) :
  (length (sent env g ctx r) <= 1)%nat
  /\ (sent env g ctx r = []
      <-> (exists e,
             url_Parse env (baseURL g +:+ "/api/v1/search/roles/") = Err e)
          \/ (exists u e,
                url_Parse env (baseURL g +:+ "/api/v1/search/roles/") = Ok u
                /\ http_NewRequestWithContext env ctx "GET"
                     (search_url env u r) = Err e)).
Proof.
  split.
  - destruct (call_sent env g ctx r) as [-> | (u & req & _ & _ & ->)];
      simpl; lia.
  - split; [|apply sent_before_request].
    intros Hnil.
    destruct (url_Parse env (baseURL g +:+ "/api/v1/search/roles/"))
      as [u|e] eqn:Hu; [|left; now exists e].
    destruct (http_NewRequestWithContext env ctx "GET" (search_url env u r))
      as [req|e] eqn:Hreq; [|right; now exists u, e].
    rewrite (sent_after_request _ _ _ _ u req Hu Hreq) in Hnil.
    discriminate.
Qed.

(** X6: a lookup fails exactly when a library call failed, and then with
    that call's error, or when the registry answered and no entry was chosen,
    and then with "unable to find role" for the keyword. *)
Theorem errors_of_a_lookup (env : Env) (g : AnsibleGalaxy)
    (ctx : context_Context) (r : Role) (e : error) :
  returned env g ctx r = Err e
  <-> LibraryFailure env g ctx r e
      \/ exists resp results,
           Answers env g ctx r resp results
           /\ matching (Results results) (namespace (keywords r)) = None
           /\ e = UnableToFindRole (keywords r).
Proof.
  split; [apply call_Err_inv|].
  intros [Hlib | (resp & results & Hans & Hnone & ->)].
  - now apply call_LibraryFailure.
  - now rewrite (call_Answers _ _ _ _ _ _ Hans), Hnone.
Qed.

Lemma errors_of_a_lookup_witness :
  LibraryFailure
    (Fixtures.scripted (Ok Fixtures.search_location)
       (Ok Fixtures.plain_request) (Err Fixtures.timeout)
       (Ok (Fixtures.decoded [])))
    Fixtures.galaxy Fixtures.ctx Fixtures.ghost_role Fixtures.timeout
  \/ exists resp results,
       Answers
         (Fixtures.scripted (Ok Fixtures.search_location)
            (Ok Fixtures.plain_request) (Err Fixtures.timeout)
            (Ok (Fixtures.decoded [])))
         Fixtures.galaxy Fixtures.ctx Fixtures.ghost_role resp results
       /\ matching (Results results) (namespace (keywords Fixtures.ghost_role))
          = None
       /\ Fixtures.timeout = UnableToFindRole (keywords Fixtures.ghost_role).
Proof.
  apply errors_of_a_lookup. reflexivity.
Defined.

(** ** The request on the wire *)

Lemma search_request_headers (built : Request) :
  Method (search_request built) = Method built
  /\ RequestURL (search_request built) = RequestURL built
  /\ Header (search_request built) !! "User-Agent"
     = Some ["ansible-requirements-lint"]
  /\ Header (search_request built) !! "Accept"
     = Some (default [] (Header built !! "Accept") ++ ["application/json"])
  /\ forall k : string,
       k <> "User-Agent" -> k <> "Accept" ->
       Header (search_request built) !! k = Header built !! k.
Proof.
  unfold search_request, Header_Add, Header_Set. simpl.
  repeat split.
  - rewrite lookup_insert_ne by discriminate. apply lookup_insert_eq.
  - rewrite lookup_insert_eq. now rewrite lookup_insert_ne by discriminate.
  - intros k Hua Hacc. now rewrite !lookup_insert_ne by congruence.
Qed.

(** X7: in every request a lookup sends, [User-Agent] is exactly
    "ansible-requirements-lint", whatever the built request carried there;
    "application/json" is appended to the [Accept] values already present;
    the method, the URL and all other headers are those of the request
    [http.NewRequestWithContext] built. *)
Theorem sent_request_headers (env : Env) (g : AnsibleGalaxy)
    (ctx : context_Context) (r : Role) (req : Request) :
  req ∈ sent env g ctx r ->
  exists u built,
    url_Parse env (baseURL g +:+ "/api/v1/search/roles/") = Ok u
    /\ http_NewRequestWithContext env ctx "GET" (search_url env u r) = Ok built
    /\ Method req = Method built
    /\ RequestURL req = RequestURL built
    /\ Header req !! "User-Agent" = Some ["ansible-requirements-lint"]
    /\ Header req !! "Accept"
       = Some (default [] (Header built !! "Accept") ++ ["application/json"])
    /\ forall k : string,
         k <> "User-Agent" -> k <> "Accept" ->
         Header req !! k = Header built !! k.
Proof.
  intros Hin.
  destruct (call_sent env g ctx r) as [Hnil | (u & built & Hu & Hreq & Hsent)].
  - rewrite Hnil in Hin. inversion Hin.
  - rewrite Hsent in Hin. apply list_elem_of_singleton in Hin as ->.
    exists u, built. split; [exact Hu|]. split; [exact Hreq|].
    apply search_request_headers.
Qed.

Lemma sent_request_headers_witness :
  exists u built,
    url_Parse
      (Fixtures.scripted (Ok Fixtures.search_location)
         (Ok Fixtures.plain_request) (Err Fixtures.timeout)
         (Ok (Fixtures.decoded [])))
      (baseURL Fixtures.galaxy +:+ "/api/v1/search/roles/") = Ok u
    /\ http_NewRequestWithContext
         (Fixtures.scripted (Ok Fixtures.search_location)
            (Ok Fixtures.plain_request) (Err Fixtures.timeout)
            (Ok (Fixtures.decoded [])))
         Fixtures.ctx "GET"
         (search_url
            (Fixtures.scripted (Ok Fixtures.search_location)
               (Ok Fixtures.plain_request) (Err Fixtures.timeout)
               (Ok (Fixtures.decoded [])))
            u Fixtures.ns_role)
       = Ok built
    /\ Method (search_request Fixtures.plain_request) = Method built
    /\ RequestURL (search_request Fixtures.plain_request) = RequestURL built
    /\ Header (search_request Fixtures.plain_request) !! "User-Agent"
       = Some ["ansible-requirements-lint"]
    /\ Header (search_request Fixtures.plain_request) !! "Accept"
       = Some (default [] (Header built !! "Accept") ++ ["application/json"])
    /\ forall k : string,
         k <> "User-Agent" -> k <> "Accept" ->
         Header (search_request Fixtures.plain_request) !! k
         = Header built !! k.
Proof.
  apply (sent_request_headers
           (Fixtures.scripted (Ok Fixtures.search_location)
              (Ok Fixtures.plain_request) (Err Fixtures.timeout)
              (Ok (Fixtures.decoded [])))
           Fixtures.galaxy Fixtures.ctx Fixtures.ns_role).
  apply list_elem_of_singleton. reflexivity.
Defined.

(** ** The choice of the entry *)

Lemma matching_Some_elem (results : list galaxyResult) (ns : string)
    (m : galaxyResult) :
  matching results ns = Some m ->
  m ∈ results /\ (results = [m] \/ namespace_of m = ns).
Proof.
  unfold matching.
  destruct (Nat.eqb_spec (length results) 1) as [Hone|_].
  - destruct results as [|e [|e' rest]]; try discriminate.
    simpl. intros [= <-]. split; [apply list_elem_of_singleton|left];
      reflexivity.
  - intros (pre & post & -> & _ & Hns)%scan_results_Some.
    split; [|right; exact Hns].
    apply elem_of_app. right. apply list_elem_of_here.
Qed.

(** X8: the versions a lookup returns are those of an entry of the decoded
    result list, and that entry is the only entry of the list or carries the
    expected namespace: no version is made up, none comes from an entry of
    another namespace picked among several. *)
Theorem returned_versions_come_from_results (env : Env) (g : AnsibleGalaxy)
    (ctx : context_Context) (r : Role) (vs : list string) :
  returned env g ctx r = Ok vs ->
  exists resp results m,
    Answers env g ctx r resp results
    /\ m ∈ Results results
    /\ (Results results = [m] \/ namespace_of m = namespace (keywords r))
    /\ vs = names_of m.
Proof.
  intros (resp & results & m & Hans & Hm & ->)%call_Ok_inv.
  exists resp, results, m. rewrite versions_map.
  destruct (matching_Some_elem _ _ _ Hm) as [Hin Hwhy].
  repeat split; assumption.
Qed.

Lemma returned_versions_come_from_results_witness :
  exists resp results m,
    Answers
      (Fixtures.registry 200
         [Fixtures.entry "other" ["v3"]; Fixtures.entry "ns" ["v2"; "v1"]])
      Fixtures.galaxy Fixtures.ctx Fixtures.ns_role resp results
    /\ m ∈ Results results
    /\ (Results results = [m]
        \/ namespace_of m = namespace (keywords Fixtures.ns_role))
    /\ ["v2"; "v1"] = names_of m.
Proof.
  apply returned_versions_come_from_results. reflexivity.
Defined.

(** X9: the one-entry rule changes the choice only for a list of exactly one
    entry whose namespace is not the expected one; in every other case the
    choice is that of the scan by namespace. *)
Theorem single_entry_rule_matters_for_foreign_namespace_only
    (results : list galaxyResult) (ns : string) :
  matching results ns <> scan_results results ns
  <-> exists e, results = [e] /\ namespace_of e <> ns.
Proof.
  unfold matching. split.
  - destruct (Nat.eqb_spec (length results) 1) as [Hone|_];
      [|intros []; reflexivity].
    destruct results as [|e [|e' rest]]; try discriminate.
    simpl. intros Hdiff. exists e. split; [reflexivity|].
    intros Heq. apply Hdiff.
    now rewrite (proj2 (String.eqb_eq _ _) Heq).
  - intros (e & -> & Hns). simpl.
    destruct (String.eqb_spec (namespace_of e) ns); [contradiction|].
    discriminate.
Qed.

Lemma single_entry_rule_matters_for_foreign_namespace_only_witness :
  matching [Fixtures.entry "other" ["v1"]] "ns"
  <> scan_results [Fixtures.entry "other" ["v1"]] "ns".
Proof.
  apply single_entry_rule_matters_for_foreign_namespace_only.
  exists (Fixtures.entry "other" ["v1"]). split; [reflexivity | discriminate].
Defined.

(** X10: what the registry's answer contributes to the outcome is its list
    of results: two lookups for the same keyword whose answers carry the same
    status code and decode to the same result list return the same, whatever
    the [count] field, the body text, the base URL or the context. *)
Theorem outcome_depends_on_result_list (env1 env2 : Env)
    (g1 g2 : AnsibleGalaxy) (ctx1 ctx2 : context_Context) (r1 r2 : Role)
    (resp1 resp2 : Response) (results1 results2 : searchResults) :
  Answers env1 g1 ctx1 r1 resp1 results1 ->
  Answers env2 g2 ctx2 r2 resp2 results2 ->
  keywords r1 = keywords r2 ->
  StatusCode resp1 = StatusCode resp2 ->
  Results results1 = Results results2 ->
  returned env1 g1 ctx1 r1 = returned env2 g2 ctx2 r2.
Proof.
  intros H1 H2 Hkw _ Hres.
  rewrite (call_Answers _ _ _ _ _ _ H1), (call_Answers _ _ _ _ _ _ H2).
  now rewrite Hkw, Hres.
Qed.

Lemma outcome_depends_on_result_list_witness :
  returned
    (Fixtures.registry 200 [Fixtures.entry "ns" ["v2"; "v1"]])
    Fixtures.galaxy Fixtures.ctx Fixtures.ns_role
  = returned
      (Fixtures.scripted (Ok Fixtures.search_location)
         (Ok Fixtures.plain_request)
         (Ok {| StatusCode := 200; Body := Ok "{}" |})
         (Ok {| Count := 40; Results := [Fixtures.entry "ns" ["v2"; "v1"]] |}))
      (NewAnsibleGalaxy "http://localhost:8080") (context_token 7)
      {| Name := "role"; Version := "v9"; Source := "ns.role" |}.
Proof.
  apply (outcome_depends_on_result_list _ _ _ _ _ _ _ _
           {| StatusCode := 200; Body := Ok "{...}" |}
           {| StatusCode := 200; Body := Ok "{}" |}
           (Fixtures.decoded [Fixtures.entry "ns" ["v2"; "v1"]])
           {| Count := 40; Results := [Fixtures.entry "ns" ["v2"; "v1"]] |});
    try reflexivity.
  - apply registry_Answers.
  - econstructor; reflexivity.
Defined.

(** ** The keyword and the namespace *)

(** X11: a lookup reads the role through its keyword alone: two roles with
    the same keyword (they may differ in their declared version, and in their
    name when a source is given) return the same and send the same. *)
Theorem lookup_reads_the_keyword_only (env : Env) (g : AnsibleGalaxy)
    (ctx : context_Context) (r1 r2 : Role) :
  keywords r1 = keywords r2 ->
  call env g ctx r1 = call env g ctx r2.
Proof.
  intros Hkw. unfold call, VersionsForRole. now rewrite Hkw.
Qed.

Lemma lookup_reads_the_keyword_only_witness :
  call (Fixtures.registry 200 [Fixtures.entry "fork" ["v2"]])
    Fixtures.galaxy Fixtures.ctx Fixtures.forked_role
  = call (Fixtures.registry 200 [Fixtures.entry "fork" ["v2"]])
      Fixtures.galaxy Fixtures.ctx
      {| Name := "another.name"; Version := "v2"; Source := "fork.role" |}.
Proof.
  apply lookup_reads_the_keyword_only. reflexivity.
Defined.



Lemma Split_byte_head (sep : ascii) (s : string) :
  exists seg segs,
    Split_byte sep s = seg :: segs
    /\ contains_byte sep seg = false
    /\ (segs = [] /\ s = seg
        \/ exists rest, s = seg +:+ String sep rest).
Proof.
  pose proof (Split_byte_not_nil sep s) as Hnil.
  pose proof (Split_byte_segments sep s) as Hfree.
  pose proof (Join_Split_byte sep s) as Hjoin.
  destruct (Split_byte sep s) as [|seg segs]; [contradiction|].
  exists seg, segs. split; [reflexivity|].
  apply Forall_cons in Hfree as [Hseg _]. split; [exact Hseg|].
  destruct segs as [|seg' segs]; simpl in Hjoin.
  - left. split; [reflexivity | now symmetry].
  - right. eexists. symmetry. exact Hjoin.
Qed.

Lemma contains_byte_app (c : ascii) (s t : string) :
  contains_byte c (s +:+ t) = contains_byte c s || contains_byte c t.
Proof.
  induction s as [|c' s IH]; simpl; [reflexivity|].
  now rewrite IH, orb_assoc.
Qed.

(** X13: the expected namespace contains no [.] and is a prefix of the
    keyword: it is the whole keyword exactly when the keyword has no [.],
    and otherwise the keyword is the namespace, a [.], and a rest. *)
Theorem namespace_is_dot_free_prefix (kw : string) :
  contains_byte "." (namespace kw) = false
  /\ (namespace kw = kw <-> contains_byte "." kw = false)
  /\ (contains_byte "." kw = true ->
      exists rest, kw = namespace kw +:+ "." +:+ rest).
Proof.
  rewrite namespace_first_segment. unfold strings_Split_dot.
  destruct (Split_byte_head "." kw)
    as (seg & segs & -> & Hfree & [[-> ->] | [rest ->]]); simpl.
  - split; [exact Hfree|]. split; [now split|]. congruence.
  - split; [exact Hfree|]. split.
    + split.
      * intros Heq. rewrite <- Heq. exact Hfree.
      * rewrite contains_byte_app, Hfree. simpl. discriminate.
    + intros _. now exists rest.
Qed.

Lemma namespace_is_dot_free_prefix_witness :
  exists rest, "geerlingguy.apache.extra"
               = namespace "geerlingguy.apache.extra" +:+ "." +:+ rest.
Proof.
  apply namespace_is_dot_free_prefix. reflexivity.
Defined.

(** X14: the expected namespace is empty exactly for the empty keyword and
    for a keyword that starts with [.]. *)
Theorem namespace_empty_iff (kw : string) :
  namespace kw = "" <-> kw = "" \/ exists rest, kw = "." +:+ rest.
Proof.
  rewrite namespace_first_segment. unfold strings_Split_dot.
  destruct kw as [|c s]; simpl.
  - split; [now left | reflexivity].
  - destruct (Ascii.eqb_spec c ".") as [->|Hc]; simpl.
    + split; [right; now exists s | reflexivity].
    + split.
      * destruct (Split_byte "." s); discriminate.
      * intros [[=] | [rest [= Hc' _]]]. contradiction.
Qed.

Lemma namespace_empty_iff_witness : namespace ".hidden" = "".
Proof.
  apply namespace_empty_iff. right. now exists "hidden".
Defined.

(** X15: splitting a keyword on [.] gives at least one segment, no segment
    contains a [.], and joining the segments with [.] gives the keyword
    back. *)
Theorem split_join_round_trip (kw : string) :
  strings_Split_dot kw <> []
  /\ Forall (fun seg => contains_byte "." seg = false) (strings_Split_dot kw)
  /\ Join_byte "." (strings_Split_dot kw) = kw.
Proof.
  unfold strings_Split_dot. split; [apply Split_byte_not_nil|].
  split; [apply Split_byte_segments | apply Join_Split_byte].
Qed.

(** ** The constructor *)

(** X16: the base URL of a client is never empty, and building a client
    from the base URL of a client gives the same client; in particular the
    default URL passed by hand and the empty string build the same client. *)
Theorem base_url_never_empty (base : string) :
  baseURL (NewAnsibleGalaxy base) <> ""
  /\ NewAnsibleGalaxy (baseURL (NewAnsibleGalaxy base)) = NewAnsibleGalaxy base
  /\ NewAnsibleGalaxy DefaultAnsibleGalaxyURL = NewAnsibleGalaxy "".
Proof.
  unfold NewAnsibleGalaxy.
  destruct (String.eqb_spec base "") as [->|Hne]; simpl.
  - repeat split. discriminate.
  - repeat split; [exact Hne|].
    destruct (String.eqb_spec base ""); [contradiction | reflexivity].
Qed.
